(** * scripts/akshare_fund_flow.py

    A shallow embedding of the fund-flow script and the properties of its
    classification, normalisation and command-line behaviour.

    The script is forty lines of Python around one call into a data provider.
    Python values, exceptions, the two output streams and the process exit
    status are modelled explicitly; the provider, the text-to-float parser of
    the [float] builtin and the decimal rendering of a finite float are not
    part of the repository and are taken as parameters. *)

From Stdlib Require Import String Ascii List ZArith Bool Lia DecimalString.
From Stdlib Require Import Floats.SpecFloat.
Import ListNotations.
Local Open Scope string_scope.
Local Open Scope list_scope.

(** ** Python runtime *)

Module Py.

(** Python floats are IEEE-754 binary64 values. *)
Definition float64 : Type := spec_float.

Definition prec : Z := 53.
Definition emax : Z := 1024.

(** The values that reach the script: the cells of a provider frame and
    the entries of the dictionaries handed to [json.dumps]. *)
Inductive pyval : Type :=
| VNone
| VInt (z : Z)
| VFloat (x : float64)
| VStr (s : string).

Definition pydict : Type := list (string * pyval).

(** An instance of a subclass of [Exception], the class the handler of
    the script names; [exc_str] is what [str(e)] yields. *)
Record PyException : Type := mkExc { exc_class : string; exc_str : string }.

(** A pure computation that either returns or raises. *)
Inductive result (A : Type) : Type :=
| Returns (a : A)
| Throws (e : PyException).
Arguments Returns {A} a.
Arguments Throws {A} e.

(** How a statement sequence ends: normally, by an exception travelling
    upwards, or by [SystemExit], which no [except Exception] clause
    intercepts. *)
Inductive outcome (A : Type) : Type :=
| Ok (a : A)
| Raise (e : PyException)
| SysExit (code : Z).
Arguments Ok {A} a.
Arguments Raise {A} e.
Arguments SysExit {A} code.

(** The two text streams, one entry per [print] call. *)
Record streams : Type := mkStreams { stdout : list string; stderr : list string }.

Definition no_output : streams := {| stdout := []; stderr := [] |}.

Definition M (A : Type) : Type := streams -> outcome A * streams.

Definition ret {A} (a : A) : M A := fun s => (Ok a, s).

Definition bind {A B} (c : M A) (k : A -> M B) : M B :=
  fun s =>
    match c s with
    | (Ok a, s') => k a s'
    | (Raise e, s') => (Raise e, s')
    | (SysExit n, s') => (SysExit n, s')
    end.

Definition lift {A} (r : result A) : M A :=
  fun s =>
    match r with
    | Returns a => (Ok a, s)
    | Throws e => (Raise e, s)
    end.

(** [print(line)] *)
Definition print (line : string) : M unit :=
  fun s => (Ok tt, {| stdout := stdout s ++ [line]; stderr := stderr s |}).

(** [print(line, file=sys.stderr)] *)
Definition print_err (line : string) : M unit :=
  fun s => (Ok tt, {| stdout := stdout s; stderr := stderr s ++ [line] |}).

(** [sys.exit(code)] *)
Definition sys_exit {A} (code : Z) : M A := fun s => (SysExit code, s).

(** [try: body  except Exception as e: handler(e)] *)
Definition try_except {A} (body : M A) (handler : PyException -> M A) : M A :=
  fun s =>
    match body s with
    | (Raise e, s') => handler e s'
    | other => other
    end.

(** [str.startswith] and the slice [s[n:]].  Strings are sequences of
    UTF-8 bytes; every prefix the script tests is ASCII, so testing and
    cutting bytes agrees with testing and cutting code points. *)
Definition startswith (s p : string) : bool := String.prefix p s.

Fixpoint slice_from (n : nat) (s : string) : string :=
  match n, s with
  | O, _ => s
  | S _, EmptyString => EmptyString
  | S n', String _ s' => slice_from n' s'
  end.

(** [argv[i]] *)
Definition getitem (l : list string) (i : nat) : result string :=
  match nth_error l i with
  | Some x => Returns x
  | None => Throws (mkExc "IndexError" "list index out of range")
  end.

(** [float(z)] for an integer: round to nearest, ties to even; an
    integer beyond the binary64 range raises [OverflowError]. *)
Definition float_of_int (z : Z) : result float64 :=
  match binary_normalize prec emax z 0 false with
  | S754_infinity _ =>
      Throws (mkExc "OverflowError" "int too large to convert to float")
  | x => Returns x
  end.

Definition zero : float64 := S754_zero false.

Definition is_number (v : pyval) : bool :=
  match v with
  | VInt _ | VFloat _ => true
  | _ => false
  end.

Definition is_float (v : pyval) : bool :=
  match v with
  | VFloat _ => true
  | _ => false
  end.

Definition is_int (v : pyval) : bool :=
  match v with
  | VInt _ => true
  | _ => false
  end.

Section Builtins.

(** [float(s)] on text, and [repr] of a finite non-zero float
    (sign, mantissa, exponent). *)
Variable parse_float : string -> result float64.
Variable repr_finite : bool -> positive -> Z -> string.

(** The [float] builtin. *)
Definition float (v : pyval) : result float64 :=
  match v with
  | VFloat x => Returns x
  | VInt z => float_of_int z
  | VStr s => parse_float s
  | VNone =>
      Throws (mkExc "TypeError"
        "float() argument must be a string or a real number, not 'NoneType'")
  end.

(** Number rendering of [json.dumps] (with its default [allow_nan]). *)
Definition float_repr (x : float64) : string :=
  match x with
  | S754_zero false => "0.0"
  | S754_zero true => "-0.0"
  | S754_infinity false => "Infinity"
  | S754_infinity true => "-Infinity"
  | S754_nan => "NaN"
  | S754_finite s m e => repr_finite s m e
  end.

Definition dquote : string := String "034"%char EmptyString.

(** Keys and text values are written between quotes; the script only
    passes keys made of ASCII letters and underscores, for which the
    encoder escapes nothing. *)
Definition json_value (v : pyval) : string :=
  match v with
  | VNone => "null"
  | VInt z => NilZero.string_of_int (Z.to_int z)
  | VFloat x => float_repr x
  | VStr s => dquote ++ s ++ dquote
  end.

Definition json_item (kv : string * pyval) : string :=
  dquote ++ fst kv ++ dquote ++ ": " ++ json_value (snd kv).

(** [json.dumps(d)] for a dictionary, in insertion order. *)
Definition json_dumps (d : pydict) : string :=
  "{" ++ String.concat ", " (map json_item d) ++ "}".

End Builtins.

End Py.

Import Py.

Declare Scope py_scope.
Delimit Scope py_scope with py.
Notation "x <- c ;; k" := (bind c (fun x => k))
  (at level 61, c at next level, right associativity) : py_scope.
Notation "c ;;; k" := (bind c (fun _ => k))
  (at level 61, right associativity) : py_scope.

(** ** The provider's table *)

Module Pandas.

(** A labelled row, as [df.iloc[i]] yields it. *)
Record Series : Type := mkSeries { index : list string; values : list pyval }.

(** A frame: the column labels and the rows in the provider's order. *)
Record DataFrame : Type := mkFrame { columns : list string; rows : list (list pyval) }.

(** [df.empty]: one of the two axes has length zero. *)
Definition empty (df : DataFrame) : bool :=
  (Nat.eqb (length (columns df)) 0) || (Nat.eqb (length (rows df)) 0).

Fixpoint last_row (l : list (list pyval)) : option (list pyval) :=
  match l with
  | [] => None
  | [r] => Some r
  | _ :: l' => last_row l'
  end.

(** [df.iloc[-1]] *)
Definition iloc_last (df : DataFrame) : result Series :=
  match last_row (rows df) with
  | Some r => Returns {| index := columns df; values := r |}
  | None =>
      Throws (mkExc "IndexError" "single positional indexer is out-of-bounds")
  end.

Fixpoint lookup (labels : list string) (cells : list pyval) (key : string)
  : option pyval :=
  match labels, cells with
  | l :: labels', c :: cells' =>
      if String.eqb l key then Some c else lookup labels' cells' key
  | _, _ => None
  end.

(** [row.get(key, default)] on a row whose labels are distinct, as the
    column labels of a provider frame are: a label then selects one cell.
    (Under a repeated label pandas hands out the cells as a series, which
    [float] rejects; the properties that read cells assume [NoDup] of the
    labels.) *)
Definition get (row : Series) (key : string) (default : pyval) : pyval :=
  match lookup (index row) (values row) key with
  | Some v => v
  | None => default
  end.

End Pandas.

(** ** The script *)

Section Script.

Local Open Scope py_scope.

Variable parse_float : string -> result float64.
Variable repr_finite : bool -> positive -> Z -> string.

(** [ak.stock_individual_fund_flow(stock=..., market=...)]: the provider
    answers with a frame or raises. *)
Variable stock_individual_fund_flow : string -> string -> result Pandas.DataFrame.

(** Lines 23-28: the market of a stock code, [None] where the function
    returns without a market. *)
Definition market_of_code (stock_code : string) : option string :=
  if startswith stock_code "60" || startswith stock_code "68"
     || startswith stock_code "51" then Some "sh"
  else if startswith stock_code "00" || startswith stock_code "30" then Some "sz"
  else None.

(** Lines 41-48: output name and provider column of each entry, in the
    order of the dictionary display. *)
Definition fund_flow_fields : list (string * string) :=
  [ ("main_net_inflow", "主力净流入-净额");
    ("super_large_net_inflow", "超大单净流入-净额");
    ("large_net_inflow", "大单净流入-净额");
    ("medium_net_inflow", "中单净流入-净额");
    ("small_net_inflow", "小单净流入-净额");
    ("net_inflow_ratio", "主力净流入-净占比");
    ("active_buy_amount", "主力买入成交额");
    ("active_sell_amount", "主力卖出成交额") ].

(** One entry: [name: float(latest_data.get(column, 0))]. *)
Definition fund_flow_entry (latest_data : Pandas.Series) (f : string * string)
  : result (string * pyval) :=
  match float parse_float (Pandas.get latest_data (snd f) (VInt 0)) with
  | Returns x => Returns (fst f, VFloat x)
  | Throws e => Throws e
  end.

(** The entries of a dictionary display are evaluated in order; the
    first one that raises ends the evaluation. *)
Fixpoint dict_display (latest_data : Pandas.Series) (fs : list (string * string))
  : result pydict :=
  match fs with
  | [] => Returns []
  | f :: fs' =>
      match fund_flow_entry latest_data f with
      | Throws e => Throws e
      | Returns kv =>
          match dict_display latest_data fs' with
          | Throws e => Throws e
          | Returns d => Returns (kv :: d)
          end
      end
  end.

(** Lines 22-51: the body of the [try]. *)
Definition get_fund_flow_data_body (stock_code : string) : M (option pydict) :=
  match market_of_code stock_code with
  | None => ret None
  | Some market =>
      df <- lift (stock_individual_fund_flow stock_code market) ;;
      if Pandas.empty df then ret None
      else
        latest_data <- lift (Pandas.iloc_last df) ;;
        fund_flow <- lift (dict_display latest_data fund_flow_fields) ;;
        ret (Some fund_flow)
  end.

(** Line 54: the text written by the handler. *)
Definition diagnostic (stock_code : string) (e : PyException) : string :=
  "Error getting fund flow data for " ++ stock_code ++ ": " ++ exc_str e.

(** Lines 11-55. *)
Definition get_fund_flow_data (stock_code : string) : M (option pydict) :=
  try_except (get_fund_flow_data_body stock_code)
    (fun e => print_err (diagnostic stock_code e) ;;; ret None).

Definition usage : string := "Usage: python akshare_fund_flow.py <stock_code>".

(** Lines 66-69: the code without a leading [SH] or [SZ]. *)
Definition strip_exchange_prefix (stock_code_input : string) : string :=
  if startswith stock_code_input "SH" || startswith stock_code_input "SZ"
  then slice_from 2 stock_code_input
  else stock_code_input.

(** Lines 76-85: the dictionary printed when no data came back. *)
Definition default_fund_flow : pydict :=
  [ ("main_net_inflow", VInt 0);
    ("super_large_net_inflow", VInt 0);
    ("large_net_inflow", VInt 0);
    ("medium_net_inflow", VInt 0);
    ("small_net_inflow", VInt 0);
    ("net_inflow_ratio", VInt 0);
    ("active_buy_amount", VInt 0);
    ("active_sell_amount", VInt 0) ].

(** Lines 57-85.  The test [if fund_flow_data:] holds for a dictionary
    with at least one entry; [None] and the empty dictionary fail it. *)
Definition main (argv : list string) : M unit :=
  (if negb (Nat.eqb (length argv) 2)
   then print usage ;;; sys_exit 1
   else ret tt) ;;;
  stock_code_input <- lift (getitem argv 1) ;;
  let stock_code := strip_exchange_prefix stock_code_input in
  fund_flow_data <- get_fund_flow_data stock_code ;;
  match fund_flow_data with
  | Some ((_ :: _) as d) => print (json_dumps repr_finite d)
  | _ => print (json_dumps repr_finite default_fund_flow)
  end.

(** What the caller of the process observes. *)
Record process : Type := mkProcess {
  out_lines : list string;
  err_lines : list string;
  exit_status : Z
}.

Definition traceback (e : PyException) : string :=
  "Traceback (most recent call last): " ++ exc_class e ++ ": " ++ exc_str e.

(** Lines 87-88: the interpreter runs [main()] with empty streams; a
    normal return exits with 0, [sys.exit(n)] with [n], and an exception
    that reaches the top level prints a traceback and exits with 1. *)
Definition run_script (argv : list string) : process :=
  match main argv no_output with
  | (Ok _, s) => mkProcess (stdout s) (stderr s) 0
  | (SysExit n, s) => mkProcess (stdout s) (stderr s) n
  | (Raise e, s) => mkProcess (stdout s) (stderr s ++ [traceback e]) 1
  end.

End Script.

(** ** Vocabulary of the properties *)

(** A code made of decimal digits only. *)
Definition is_digit (c : ascii) : bool :=
  (Nat.leb 48 (nat_of_ascii c)) && (Nat.leb (nat_of_ascii c) 57).

Fixpoint all_digits (s : string) : bool :=
  match s with
  | EmptyString => true
  | String c s' => is_digit c && all_digits s'
  end.

(** The handler's effect on the streams. *)
Definition reported (stock_code : string) (e : PyException) (s : streams) : streams :=
  {| stdout := stdout s; stderr := stderr s ++ [diagnostic stock_code e] |}.

(** The eight names of the output. *)
Definition canonical_fields : list string :=
  [ "main_net_inflow"; "super_large_net_inflow"; "large_net_inflow";
    "medium_net_inflow"; "small_net_inflow"; "net_inflow_ratio";
    "active_buy_amount"; "active_sell_amount" ].

(** The text of a snapshot whose eight values are all written [number]. *)
Definition snapshot_text (number : string) : string :=
  "{" ++ String.concat ", "
           (map (fun k => (dquote ++ k ++ dquote ++ ": " ++ number)%string)
                canonical_fields)
      ++ "}".

(** The normaliser in the words of the specification: each field on its
    own, the converted value where the column is present and converts,
    zero where it is absent or does not convert. *)
Definition field_or_zero (parse_float : string -> result float64)
  (row : Pandas.Series) (column : string) : float64 :=
  match Pandas.lookup (Pandas.index row) (Pandas.values row) column with
  | None => zero
  | Some v =>
      match float parse_float v with
      | Returns x => x
      | Throws _ => zero
      end
  end.

Definition normalize_independently (parse_float : string -> result float64)
  (row : Pandas.Series) : pydict :=
  map (fun f => (fst f, VFloat (field_or_zero parse_float row (snd f))))
      fund_flow_fields.

(** The two ways the process ends when no data came back: silently, or
    after the handler wrote its line. *)
Definition quiet_default (repr_finite : bool -> positive -> Z -> string) : process :=
  mkProcess [json_dumps repr_finite default_fund_flow] [] 0.

Definition reported_default (repr_finite : bool -> positive -> Z -> string)
  (stock_code : string) (e : PyException) : process :=
  mkProcess [json_dumps repr_finite default_fund_flow] [diagnostic stock_code e] 0.

(** ** Sample collaborators

    Concrete stand-ins for the three parameters, used to run the script on
    explicit inputs. *)

Module Sample.

(** A text parser for the examples: it reads unsigned decimal integers
    as [float] does and rejects every other text, the dash a provider
    prints for a missing figure among them. *)
Definition parse_float (s : string) : result float64 :=
  match NilZero.uint_of_string s with
  | Some d => float_of_int (Z.of_uint d)
  | None =>
      Throws (mkExc "ValueError"
        ("could not convert string to float: '" ++ s ++ "'"))
  end.

(** [repr] for the examples: exact on integer-valued floats below
    [10^16]; other values do not occur in the examples. *)
Definition repr_finite (s : bool) (m : positive) (e : Z) : string :=
  let whole := (if 0 <=? e then true else Zpos m mod 2 ^ (- e) =? 0)%Z in
  let n := (if 0 <=? e then Zpos m * 2 ^ e else Zpos m / 2 ^ (- e))%Z in
  if whole && (n <? 10 ^ 16)%Z
  then (if s then "-" else "") ++ NilZero.string_of_int (Z.to_int n) ++ ".0"
  else "float".

Definition provider_columns : list string :=
  [ "日期"; "收盘价"; "主力净流入-净额"; "主力净流入-净占比";
    "超大单净流入-净额"; "大单净流入-净额"; "中单净流入-净额";
    "小单净流入-净额" ].

Definition row_monday : list pyval :=
  [ VStr "2024-01-08"; VInt 7; VInt 100; VInt 1; VInt 40; VInt 60;
    VInt (-30); VInt (-70) ].

Definition row_tuesday : list pyval :=
  [ VStr "2024-01-09"; VInt 8; VInt 250; VInt 2; VInt 150; VInt 100;
    VInt (-90); VInt (-160) ].

Definition row_other_monday : list pyval :=
  [ VStr "2024-01-08"; VInt 9; VInt (-5); VInt 0; VInt 1; VInt (-6);
    VInt 2; VInt 3 ].

(** A row whose super-large figure is the dash. *)
Definition row_dash : list pyval :=
  [ VStr "2024-01-09"; VInt 8; VInt 250; VInt 2; VStr "-"; VInt 100;
    VInt (-90); VInt (-160) ].

Definition frame_two_days : Pandas.DataFrame :=
  Pandas.mkFrame provider_columns [row_monday; row_tuesday].

Definition frame_two_days' : Pandas.DataFrame :=
  Pandas.mkFrame provider_columns [row_other_monday; row_tuesday].

Definition frame_dash : Pandas.DataFrame :=
  Pandas.mkFrame provider_columns [row_monday; row_dash].

(** A row with two figures [float] rejects: the ratio, which comes first
    among the columns, holds no value, and the super-large figure, which
    comes first among the entries of the script, is the dash. *)
Definition row_two_rejected : list pyval :=
  [ VStr "2024-01-09"; VInt 8; VInt 250; VNone; VStr "-"; VInt 100;
    VInt (-90); VInt (-160) ].

Definition frame_two_rejected : Pandas.DataFrame :=
  Pandas.mkFrame provider_columns [row_monday; row_two_rejected].

Definition series_two_rejected : Pandas.Series :=
  Pandas.mkSeries provider_columns row_two_rejected.

Definition frame_no_rows : Pandas.DataFrame :=
  Pandas.mkFrame provider_columns [].

(** A frame with rows whose columns are all foreign to the script. *)
Definition frame_foreign : Pandas.DataFrame :=
  Pandas.mkFrame ["date"; "close"] [[VStr "2024-01-09"; VInt 8]].

Definition serves (df : Pandas.DataFrame) : string -> string -> result Pandas.DataFrame :=
  fun _ _ => Returns df.

Definition refuses : string -> string -> result Pandas.DataFrame :=
  fun _ _ => Throws (mkExc "ConnectionError" "connection refused").

(** A provider that knows one code on one market and refuses the rest. *)
Definition only_at (stock market : string) (df : Pandas.DataFrame)
  : string -> string -> result Pandas.DataFrame :=
  fun c m =>
    if String.eqb c stock && String.eqb m market then Returns df
    else Throws (mkExc "ValueError" "unknown stock").

Definition nowhere : string -> string -> result Pandas.DataFrame :=
  fun _ _ => Throws (mkExc "RuntimeError" "the provider was not to be called").

(** The last rows of the sample frames, as [iloc] hands them out. *)
Definition series_tuesday : Pandas.Series :=
  Pandas.mkSeries provider_columns row_tuesday.

Definition series_dash : Pandas.Series :=
  Pandas.mkSeries provider_columns row_dash.

(** The float of a small integer. *)
Definition of_int (z : Z) : float64 :=
  match float_of_int z with
  | Returns x => x
  | Throws _ => zero
  end.

Definition script_name : string := "akshare_fund_flow.py".

Definition run := run_script parse_float repr_finite.
Definition dumps := json_dumps repr_finite.

End Sample.

(** ** Properties *)

(** *** Strings *)

Lemma startswith_app (p s : string) :
  startswith s p = true <-> exists t, s = (p ++ t)%string.
Proof.
  unfold startswith. revert s.
  induction p as [|a p IH]; intros s.
  - split; [intros _; exists s; reflexivity | intros _; destruct s; reflexivity].
  - destruct s as [|b s]; simpl.
    + split; [discriminate | intros [t Ht]; discriminate].
    + destruct (ascii_dec a b) as [->|Hab].
      * rewrite IH. split; intros [t Ht]; exists t.
        -- now rewrite Ht.
        -- now inversion Ht.
      * split; [discriminate | intros [t Ht]; inversion Ht; congruence].
Qed.

Lemma startswith_false (p s : string) :
  startswith s p = false <-> forall t, s <> (p ++ t)%string.
Proof.
  split.
  - intros H t Ht.
    assert (startswith s p = true) by (apply startswith_app; now exists t).
    congruence.
  - intros H. destruct (startswith s p) eqn:E; [|reflexivity].
    apply startswith_app in E. destruct E as [t Ht]. now elim (H t).
Qed.

Lemma all_digits_no_label (t : string) :
  all_digits t = true -> startswith t "SH" = false /\ startswith t "SZ" = false.
Proof.
  intros H.
  assert (Hhead : forall l u, t = String "S" (String l u) -> False).
  { intros l u ->. simpl in H. discriminate H. }
  split; apply startswith_false; intros u Hu; exact (Hhead _ _ Hu).
Qed.

(** *** Running the monad *)

Section Runs.

Variable parse_float : string -> result float64.
Variable repr_finite : bool -> positive -> Z -> string.
Variable provider : string -> string -> result Pandas.DataFrame.

Local Abbreviation fetch := (get_fund_flow_data parse_float provider).
Local Abbreviation fetch_body := (get_fund_flow_data_body parse_float provider).
Local Abbreviation dumps := (json_dumps repr_finite).
Local Abbreviation script := (run_script parse_float repr_finite provider).

(** The body of the [try], case by case. *)
Lemma fetch_body_cases (stock_code : string) (s : streams) :
  fetch_body stock_code s =
  match market_of_code stock_code with
  | None => (Ok None, s)
  | Some market =>
      match provider stock_code market with
      | Throws e => (Raise e, s)
      | Returns df =>
          if Pandas.empty df then (Ok None, s)
          else
            match Pandas.iloc_last df with
            | Throws e => (Raise e, s)
            | Returns latest_data =>
                match dict_display parse_float latest_data fund_flow_fields with
                | Throws e => (Raise e, s)
                | Returns d => (Ok (Some d), s)
                end
            end
      end
  end.
Proof.
  unfold get_fund_flow_data_body.
  destruct (market_of_code stock_code) as [market|]; [|reflexivity].
  unfold bind, lift, ret.
  destruct (provider stock_code market) as [df|e]; [|reflexivity].
  destruct (Pandas.empty df); [reflexivity|].
  destruct (Pandas.iloc_last df) as [latest_data|e]; [|reflexivity].
  destruct (dict_display parse_float latest_data fund_flow_fields); reflexivity.
Qed.

(** The whole function, case by case. *)
Lemma fetch_cases (stock_code : string) (s : streams) :
  fetch stock_code s =
  match market_of_code stock_code with
  | None => (Ok None, s)
  | Some market =>
      match provider stock_code market with
      | Throws e => (Ok None, reported stock_code e s)
      | Returns df =>
          if Pandas.empty df then (Ok None, s)
          else
            match Pandas.iloc_last df with
            | Throws e => (Ok None, reported stock_code e s)
            | Returns latest_data =>
                match dict_display parse_float latest_data fund_flow_fields with
                | Throws e => (Ok None, reported stock_code e s)
                | Returns d => (Ok (Some d), s)
                end
            end
      end
  end.
Proof.
  unfold get_fund_flow_data, try_except. rewrite fetch_body_cases.
  destruct (market_of_code stock_code) as [market|]; [|reflexivity].
  destruct (provider stock_code market) as [df|e]; [|reflexivity].
  destruct (Pandas.empty df); [reflexivity|].
  destruct (Pandas.iloc_last df) as [latest_data|e]; [|reflexivity].
  destruct (dict_display parse_float latest_data fund_flow_fields); reflexivity.
Qed.

(** [main] with a program name and one argument. *)
Lemma main_one_argument (prog input : string) (s : streams) :
  main parse_float repr_finite provider [prog; input] s =
  match fetch (strip_exchange_prefix input) s with
  | (Ok (Some ((_ :: _) as d)), s') => print (dumps d) s'
  | (Ok _, s') => print (dumps default_fund_flow) s'
  | (Raise e, s') => (Raise e, s')
  | (SysExit n, s') => (SysExit n, s')
  end.
Proof.
  unfold main. cbn [length Nat.eqb negb].
  unfold bind at 1. unfold ret at 1.
  unfold bind at 1. unfold lift at 1. cbn [getitem nth_error].
  unfold bind.
  destruct (fetch (strip_exchange_prefix input) s) as [[[[|kv d]|]|e|n] s'];
    reflexivity.
Qed.

End Runs.

(** *** The dictionary display *)

Section Display.

Variable parse_float : string -> result float64.

Local Abbreviation entry := (fund_flow_entry parse_float).
Local Abbreviation display := (dict_display parse_float).
Local Abbreviation cell row column :=
  (Pandas.lookup (Pandas.index row) (Pandas.values row) column).

Lemma float_of_default : float parse_float (VInt 0) = Returns zero.
Proof. reflexivity. Qed.

Lemma entry_absent row f :
  cell row (snd f) = None -> entry row f = Returns (fst f, VFloat zero).
Proof.
  intros H. unfold fund_flow_entry, Pandas.get. rewrite H. reflexivity.
Qed.

Lemma entry_present row f v :
  cell row (snd f) = Some v ->
  entry row f =
  match float parse_float v with
  | Returns x => Returns (fst f, VFloat x)
  | Throws e => Throws e
  end.
Proof.
  intros H. unfold fund_flow_entry, Pandas.get. rewrite H. reflexivity.
Qed.

(** Whatever the display returns has the names of the table, in order,
    and a float under each. *)
Lemma display_shape row fs d :
  display row fs = Returns d ->
  map fst d = map fst fs /\ Forall (fun kv => is_float (snd kv) = true) d.
Proof.
  revert d. induction fs as [|f fs IH]; intros d H; simpl in H.
  - inversion H. split; constructor.
  - unfold fund_flow_entry in H.
    destruct (float parse_float (Pandas.get row (snd f) (VInt 0))) as [x|e];
      [|discriminate].
    destruct (display row fs) as [d'|e]; [|discriminate].
    inversion H; subst. destruct (IH d' eq_refl) as [Hk Hv].
    split; [simpl; now rewrite Hk | constructor; [reflexivity | exact Hv]].
Qed.

(** When every present cell converts, each entry is resolved on its own. *)
Lemma display_all_convert row fs :
  (forall f v, In f fs -> cell row (snd f) = Some v ->
               exists x, float parse_float v = Returns x) ->
  display row fs =
  Returns (map (fun f => (fst f, VFloat (field_or_zero parse_float row (snd f)))) fs).
Proof.
  induction fs as [|f fs IH]; intros H; simpl; [reflexivity|].
  rewrite IH by (intros g v Hg; apply H; now right).
  destruct (cell row (snd f)) as [v|] eqn:E.
  - destruct (H f v (or_introl eq_refl) E) as [x Hx].
    rewrite (entry_present _ _ _ E), Hx.
    replace (field_or_zero parse_float row (snd f)) with x
      by (unfold field_or_zero; now rewrite E, Hx).
    reflexivity.
  - rewrite (entry_absent _ _ E).
    replace (field_or_zero parse_float row (snd f)) with zero
      by (unfold field_or_zero; now rewrite E).
    reflexivity.
Qed.

(** When some present cell does not convert, the display raises the
    exception of such a cell. *)
Lemma display_some_fails row fs f v e :
  In f fs -> cell row (snd f) = Some v -> float parse_float v = Throws e ->
  exists g w e', In g fs /\ cell row (snd g) = Some w /\
                 float parse_float w = Throws e' /\
                 display row fs = Throws e'.
Proof.
  induction fs as [|h fs IH]; intros Hin Hc Hf; [contradiction|].
  simpl.
  destruct (cell row (snd h)) as [w|] eqn:E.
  - rewrite (entry_present _ _ _ E).
    destruct (float parse_float w) as [x|e0] eqn:Ew.
    + destruct Hin as [->|Hin]; [congruence|].
      destruct (IH Hin Hc Hf) as (g & w' & e' & Hg & Hcg & Hfg & Hd).
      exists g, w', e'. rewrite Hd. auto using in_cons.
    + exists h, w, e0. auto using in_eq.
  - rewrite (entry_absent _ _ E).
    destruct Hin as [->|Hin]; [congruence|].
    destruct (IH Hin Hc Hf) as (g & w' & e' & Hg & Hcg & Hfg & Hd).
    exists g, w', e'. rewrite Hd. auto using in_cons.
Qed.

End Display.

(** *** The frame *)

Lemma last_row_snoc (earlier : list (list pyval)) (r : list pyval) :
  Pandas.last_row (earlier ++ [r]) = Some r.
Proof.
  induction earlier as [|a earlier IH]; [reflexivity|].
  simpl. rewrite IH. destruct (earlier ++ [r]) eqn:E; [|reflexivity].
  now destruct earlier.
Qed.

Lemma empty_snoc cols (earlier : list (list pyval)) (r : list pyval) :
  Pandas.empty (Pandas.mkFrame cols (earlier ++ [r])) = Nat.eqb (length cols) 0.
Proof.
  unfold Pandas.empty. simpl. rewrite length_app. simpl.
  replace (length earlier + 1) with (S (length earlier)) by lia.
  simpl. apply orb_false_r.
Qed.

Lemma iloc_last_snoc cols (earlier : list (list pyval)) (r : list pyval) :
  Pandas.iloc_last (Pandas.mkFrame cols (earlier ++ [r])) =
  Returns (Pandas.mkSeries cols r).
Proof. unfold Pandas.iloc_last. simpl. now rewrite last_row_snoc. Qed.

(** A frame that is not empty has a last row. *)
Lemma iloc_last_defined df :
  Pandas.empty df = false -> exists row, Pandas.iloc_last df = Returns row.
Proof.
  unfold Pandas.empty, Pandas.iloc_last. intros H.
  apply orb_false_iff in H. destruct H as [_ H].
  destruct (Pandas.rows df) as [|r l] eqn:E; [discriminate|].
  destruct (Pandas.last_row (r :: l)) as [x|] eqn:L; [eauto|].
  exfalso. clear E H. revert r L.
  induction l as [|a l IH]; intros r L; [discriminate|]. exact (IH a L).
Qed.

(** *** The process *)

Section Process.

Variable parse_float : string -> result float64.
Variable repr_finite : bool -> positive -> Z -> string.
Variable provider : string -> string -> result Pandas.DataFrame.

Local Abbreviation dumps := (json_dumps repr_finite).
Local Abbreviation script := (run_script parse_float repr_finite provider).

Lemma script_cases (prog input : string) :
  script [prog; input] =
  let stock_code := strip_exchange_prefix input in
  match market_of_code stock_code with
  | None => quiet_default repr_finite
  | Some market =>
      match provider stock_code market with
      | Throws e => reported_default repr_finite stock_code e
      | Returns df =>
          if Pandas.empty df then quiet_default repr_finite
          else
            match Pandas.iloc_last df with
            | Throws e => reported_default repr_finite stock_code e
            | Returns latest_data =>
                match dict_display parse_float latest_data fund_flow_fields with
                | Throws e => reported_default repr_finite stock_code e
                | Returns d => mkProcess [dumps d] [] 0
                end
            end
      end
  end.
Proof.
  unfold run_script. rewrite main_one_argument, fetch_cases. cbv zeta.
  destruct (market_of_code (strip_exchange_prefix input)) as [market|];
    [|reflexivity].
  destruct (provider (strip_exchange_prefix input) market) as [df|e];
    [|reflexivity].
  destruct (Pandas.empty df); [reflexivity|].
  destruct (Pandas.iloc_last df) as [latest_data|e]; [|reflexivity].
  destruct (dict_display parse_float latest_data fund_flow_fields) as [d|e] eqn:E;
    [|reflexivity].
  apply display_shape in E. destruct E as [Hk _].
  destruct d as [|kv d]; [discriminate Hk | reflexivity].
Qed.

End Process.

(** *** Classification *)

(** The five tests in the order the script makes them. *)
Lemma market_of_code_in_order (c : string) :
  market_of_code c =
  if startswith c "60" then Some "sh"
  else if startswith c "68" then Some "sh"
  else if startswith c "51" then Some "sh"
  else if startswith c "00" then Some "sz"
  else if startswith c "30" then Some "sz"
  else None.
Proof.
  unfold market_of_code.
  destruct (startswith c "60"), (startswith c "68"), (startswith c "51"),
    (startswith c "00"), (startswith c "30"); reflexivity.
Qed.

Lemma market_sh_intro (c : string) :
  (exists t, c = ("60" ++ t)%string \/ c = ("68" ++ t)%string \/
             c = ("51" ++ t)%string) ->
  market_of_code c = Some "sh".
Proof. intros [t [-> | [-> | ->]]]; destruct t; reflexivity. Qed.

Lemma market_sz_intro (c : string) :
  (exists t, c = ("00" ++ t)%string \/ c = ("30" ++ t)%string) ->
  market_of_code c = Some "sz".
Proof. intros [t [-> | ->]]; destruct t; reflexivity. Qed.

(** C1.  The market of a code is decided by its first two characters: a
    code that starts with 60, 68 or 51 is a Shanghai code ([sh]); one that
    starts with 00 or 30 is a Shenzhen code ([sz]); every other text, the
    empty one and texts without digits included, has no market.  The
    classification is a function defined on every string. *)
Theorem market_of_code_classification :
  (forall stock_code : string,
     (market_of_code stock_code = Some "sh" <->
        exists t, stock_code = ("60" ++ t)%string \/
                  stock_code = ("68" ++ t)%string \/
                  stock_code = ("51" ++ t)%string) /\
     (market_of_code stock_code = Some "sz" <->
        exists t, stock_code = ("00" ++ t)%string \/
                  stock_code = ("30" ++ t)%string) /\
     (market_of_code stock_code = None <->
        forall t, stock_code <> ("60" ++ t)%string /\
                  stock_code <> ("68" ++ t)%string /\
                  stock_code <> ("51" ++ t)%string /\
                  stock_code <> ("00" ++ t)%string /\
                  stock_code <> ("30" ++ t)%string)) /\
  market_of_code "" = None /\
  market_of_code "99" = None /\
  market_of_code "6" = None /\
  market_of_code "abc" = None.
Proof.
  split; [|repeat split].
  intros c. split; [|split].
  - split; [|apply market_sh_intro].
    rewrite market_of_code_in_order.
    destruct (startswith c "60") eqn:H60;
      [apply startswith_app in H60; destruct H60 as [t ->]; eauto|].
    destruct (startswith c "68") eqn:H68;
      [apply startswith_app in H68; destruct H68 as [t ->]; eauto|].
    destruct (startswith c "51") eqn:H51;
      [apply startswith_app in H51; destruct H51 as [t ->]; eauto|].
    destruct (startswith c "00"), (startswith c "30"); discriminate.
  - split; [|apply market_sz_intro].
    rewrite market_of_code_in_order.
    destruct (startswith c "60"); [discriminate|].
    destruct (startswith c "68"); [discriminate|].
    destruct (startswith c "51"); [discriminate|].
    destruct (startswith c "00") eqn:H00;
      [apply startswith_app in H00; destruct H00 as [t ->]; eauto|].
    destruct (startswith c "30") eqn:H30;
      [apply startswith_app in H30; destruct H30 as [t ->]; eauto|].
    discriminate.
  - rewrite market_of_code_in_order. split.
    + destruct (startswith c "60") eqn:H60; [discriminate|].
      destruct (startswith c "68") eqn:H68; [discriminate|].
      destruct (startswith c "51") eqn:H51; [discriminate|].
      destruct (startswith c "00") eqn:H00; [discriminate|].
      destruct (startswith c "30") eqn:H30; [discriminate|].
      intros _ t.
      rewrite startswith_false in H60, H68, H51, H00, H30.
      repeat split; auto.
    + intros H.
      assert (H60 : startswith c "60" = false)
        by (apply startswith_false; intros t; apply (H t)).
      assert (H68 : startswith c "68" = false)
        by (apply startswith_false; intros t; apply (H t)).
      assert (H51 : startswith c "51" = false)
        by (apply startswith_false; intros t; apply (H t)).
      assert (H00 : startswith c "00" = false)
        by (apply startswith_false; intros t; apply (H t)).
      assert (H30 : startswith c "30" = false)
        by (apply startswith_false; intros t; apply (H t)).
      now rewrite H60, H68, H51, H00, H30.
Qed.

(** *** The command line *)

Lemma strip_label_SH (t : string) : strip_exchange_prefix ("SH" ++ t) = t.
Proof. unfold strip_exchange_prefix, startswith. destruct t; reflexivity. Qed.

Lemma strip_label_SZ (t : string) : strip_exchange_prefix ("SZ" ++ t) = t.
Proof. unfold strip_exchange_prefix, startswith. destruct t; reflexivity. Qed.

Lemma strip_digits (t : string) :
  all_digits t = true -> strip_exchange_prefix t = t.
Proof.
  intros H. destruct (all_digits_no_label t H) as [HSH HSZ].
  unfold strip_exchange_prefix. now rewrite HSH, HSZ.
Qed.

Lemma default_text repr_finite :
  json_dumps repr_finite default_fund_flow = snapshot_text "0".
Proof. reflexivity. Qed.

Lemma dumps_starts_with_brace repr_finite (d : pydict) :
  exists rest, json_dumps repr_finite d = String "{" rest.
Proof. unfold json_dumps. simpl. eauto. Qed.

Section Claims.

Variable parse_float : string -> result float64.
Variable repr_finite : bool -> positive -> Z -> string.
Variable provider : string -> string -> result Pandas.DataFrame.

Local Abbreviation fetch := (get_fund_flow_data parse_float provider).
Local Abbreviation fetch_body := (get_fund_flow_data_body parse_float provider).
Local Abbreviation dumps := (json_dumps repr_finite).
Local Abbreviation script := (run_script parse_float repr_finite provider).

(** The process depends on its argument only through the stripped code. *)
Lemma script_reads_stripped_code (prog a b : string) :
  strip_exchange_prefix a = strip_exchange_prefix b ->
  script [prog; a] = script [prog; b].
Proof.
  intros H. unfold run_script. rewrite !main_one_argument, H. reflexivity.
Qed.

(** With one argument the process always prints one dictionary and ends
    with status 0. *)
Lemma script_always_prints (prog input : string) :
  exists d errs, script [prog; input] = mkProcess [dumps d] errs 0.
Proof.
  rewrite script_cases. cbv zeta. unfold quiet_default, reported_default.
  destruct (market_of_code (strip_exchange_prefix input)) as [market|]; [|eauto].
  destruct (provider (strip_exchange_prefix input) market) as [df|e]; [|eauto].
  destruct (Pandas.empty df); [eauto|].
  destruct (Pandas.iloc_last df) as [latest_data|e]; [|eauto].
  destruct (dict_display parse_float latest_data fund_flow_fields); eauto.
Qed.

(** C9.  When the argument vector does not consist of the program name and
    exactly one argument (no argument, or two and more), the process
    writes the usage line to standard output, writes nothing else, and
    ends with status 1; the usage line is not the text of any snapshot. *)
Theorem wrong_argument_count_prints_usage :
  forall argv : list string,
    length argv <> 2 ->
    script argv = mkProcess [usage] [] 1 /\
    (forall d, usage <> dumps d) /\
    usage = "Usage: python akshare_fund_flow.py <stock_code>".
Proof.
  intros argv H. split; [|split; [|reflexivity]].
  - unfold run_script, main. unfold bind at 1.
    destruct (Nat.eqb_spec (length argv) 2) as [E|_]; [contradiction|].
    reflexivity.
  - intros d E. destruct (dumps_starts_with_brace repr_finite d) as [rest Hr].
    rewrite Hr in E. discriminate E.
Qed.

(** C8.  With one argument whose code has a market, when the provider call
    raises an exception, the line
    [Error getting fund flow data for <code>: <detail>] goes to the error
    stream, standard output still carries the all-zero snapshot, and the
    exit status is 0. *)
Theorem provider_exception_is_reported :
  forall (prog input market : string) (e : PyException),
    market_of_code (strip_exchange_prefix input) = Some market ->
    provider (strip_exchange_prefix input) market = Throws e ->
    script [prog; input] =
    mkProcess [snapshot_text "0"]
              [("Error getting fund flow data for "
                  ++ strip_exchange_prefix input ++ ": " ++ exc_str e)%string]
              0.
Proof.
  intros prog input market e Hm Hp.
  rewrite script_cases. cbv zeta. rewrite Hm, Hp.
  unfold reported_default. rewrite default_text. reflexivity.
Qed.

(** C2.  With one argument, when the code has no market, or the fetched
    frame is empty, or the fetch raises, standard output is the all-zero
    snapshot (its eight values are the integer 0) and the exit status
    is 0. *)
Theorem no_data_gives_zero_snapshot :
  forall prog input : string,
    (market_of_code (strip_exchange_prefix input) = None \/
     (exists market df,
        market_of_code (strip_exchange_prefix input) = Some market /\
        provider (strip_exchange_prefix input) market = Returns df /\
        Pandas.empty df = true) \/
     (exists market e,
        market_of_code (strip_exchange_prefix input) = Some market /\
        provider (strip_exchange_prefix input) market = Throws e)) ->
    out_lines (script [prog; input]) = [dumps default_fund_flow] /\
    exit_status (script [prog; input]) = 0%Z /\
    dumps default_fund_flow = snapshot_text "0" /\
    map fst default_fund_flow = canonical_fields /\
    Forall (fun kv => snd kv = VInt 0) default_fund_flow.
Proof.
  intros prog input H.
  assert (Hrun : out_lines (script [prog; input]) = [dumps default_fund_flow] /\
                 exit_status (script [prog; input]) = 0%Z).
  { rewrite script_cases. cbv zeta.
    destruct H as [Hm | [(market & df & Hm & Hp & He) | (market & e & Hm & Hp)]].
    - rewrite Hm. split; reflexivity.
    - rewrite Hm, Hp, He. split; reflexivity.
    - rewrite Hm, Hp. split; reflexivity. }
  destruct Hrun as [Ho Hx].
  repeat split; try assumption.
  repeat constructor.
Qed.

(** C6.  Whatever the one argument is, the process prints one snapshot; it
    has the eight canonical names, in order, and a number (never [None],
    never text) under each of them. *)
Theorem snapshot_has_eight_numeric_fields :
  forall prog input : string,
    exists (d : pydict) (errs : list string),
      script [prog; input] = mkProcess [dumps d] errs 0 /\
      map fst d = canonical_fields /\
      length d = 8 /\
      Forall (fun kv => is_number (snd kv) = true) d.
Proof.
  intros prog input.
  assert (Hdefault : map fst default_fund_flow = canonical_fields /\
                     length default_fund_flow = 8 /\
                     Forall (fun kv => is_number (snd kv) = true) default_fund_flow)
    by (repeat split; repeat constructor).
  rewrite script_cases. cbv zeta.
  destruct (market_of_code (strip_exchange_prefix input)) as [market|];
    [|exists default_fund_flow, []; split; [reflexivity | exact Hdefault]].
  destruct (provider (strip_exchange_prefix input) market) as [df|e];
    [|eexists default_fund_flow, _; split; [reflexivity | exact Hdefault]].
  destruct (Pandas.empty df);
    [exists default_fund_flow, []; split; [reflexivity | exact Hdefault]|].
  destruct (Pandas.iloc_last df) as [latest_data|e];
    [|eexists default_fund_flow, _; split; [reflexivity | exact Hdefault]].
  destruct (dict_display parse_float latest_data fund_flow_fields) as [d|e] eqn:E;
    [|eexists default_fund_flow, _; split; [reflexivity | exact Hdefault]].
  apply display_shape in E. destruct E as [Hk Hv].
  exists d, []. split; [reflexivity|]. split; [exact Hk|]. split.
  - rewrite <- (length_map fst), Hk. reflexivity.
  - eapply Forall_impl; [|exact Hv].
    intros [k v] Hf. simpl in *. now destruct v.
Qed.

(** C10.  [get_fund_flow_data] always returns to its caller: whatever
    exception the body of its [try] raises is turned into the result
    [None] after the diagnostic line is written, nothing ends the process
    inside it, and for every argument the process goes on to print a
    snapshot and ends with status 0. *)
Theorem get_fund_flow_data_absorbs_exceptions :
  forall (stock_code : string) (s : streams),
    (exists r s', fetch stock_code s = (Ok r, s')) /\
    (forall e s', fetch_body stock_code s = (Raise e, s') ->
                  fetch stock_code s = (Ok None, reported stock_code e s')) /\
    (forall n s', fetch_body stock_code s <> (SysExit n, s')) /\
    (forall prog, exists d errs,
        script [prog; stock_code] = mkProcess [dumps d] errs 0).
Proof.
  intros stock_code s. repeat split.
  - rewrite fetch_cases.
    destruct (market_of_code stock_code) as [market|]; [|eauto].
    destruct (provider stock_code market) as [df|e]; [|eauto].
    destruct (Pandas.empty df); [eauto|].
    destruct (Pandas.iloc_last df) as [latest_data|e]; [|eauto].
    destruct (dict_display parse_float latest_data fund_flow_fields); eauto.
  - intros e s' H. unfold get_fund_flow_data, try_except. rewrite H.
    reflexivity.
  - intros n s'. rewrite fetch_body_cases.
    destruct (market_of_code stock_code) as [market|]; [|discriminate].
    destruct (provider stock_code market) as [df|e]; [|discriminate].
    destruct (Pandas.empty df); [discriminate|].
    destruct (Pandas.iloc_last df) as [latest_data|e]; [|discriminate].
    destruct (dict_display parse_float latest_data fund_flow_fields);
      discriminate.
  - intros prog. apply script_always_prints.
Qed.

End Claims.

(** *** Rows and fields *)

Section Rows.

Variable parse_float : string -> result float64.
Variable repr_finite : bool -> positive -> Z -> string.

Local Abbreviation dumps := (json_dumps repr_finite).
Local Abbreviation script := (run_script parse_float repr_finite).

(** C4.  When two fetched frames have the same columns and the same last
    row, the process behaves the same, whatever the rows before the last
    one hold: only the last row is read. *)
Theorem only_last_row_is_read :
  forall (provider provider' : string -> string -> result Pandas.DataFrame)
         (prog input market : string) (cols : list string)
         (earlier earlier' : list (list pyval)) (latest : list pyval),
    market_of_code (strip_exchange_prefix input) = Some market ->
    provider (strip_exchange_prefix input) market =
      Returns (Pandas.mkFrame cols (earlier ++ [latest])) ->
    provider' (strip_exchange_prefix input) market =
      Returns (Pandas.mkFrame cols (earlier' ++ [latest])) ->
    script provider [prog; input] = script provider' [prog; input] /\
    get_fund_flow_data parse_float provider (strip_exchange_prefix input) no_output =
    get_fund_flow_data parse_float provider' (strip_exchange_prefix input) no_output.
Proof.
  intros provider provider' prog input market cols earlier earlier' latest
         Hm Hp Hp'.
  split.
  - rewrite !script_cases. cbv zeta.
    rewrite Hm, Hp, Hp', !empty_snoc, !iloc_last_snoc. reflexivity.
  - rewrite !fetch_cases.
    rewrite Hm, Hp, Hp', !empty_snoc, !iloc_last_snoc. reflexivity.
Qed.

(** C3, as the code has it.  For a fetched frame that is not empty and its
    last row, the column labels being distinct: when every consumed column
    that is present holds a value
    [float] accepts, each of the eight fields is resolved on its own, an
    absent column giving 0.0 for its field and every other field keeping
    its converted value; when some present column holds a value [float]
    rejects, the handler writes its diagnostic line for such a value and
    the all-zero snapshot is printed in place of the record. *)
Theorem fields_resolved_or_record_replaced :
  forall (provider : string -> string -> result Pandas.DataFrame)
         (prog input market : string) (df : Pandas.DataFrame)
         (latest_data : Pandas.Series),
    market_of_code (strip_exchange_prefix input) = Some market ->
    provider (strip_exchange_prefix input) market = Returns df ->
    Pandas.empty df = false ->
    Pandas.iloc_last df = Returns latest_data ->
    NoDup (Pandas.index latest_data) ->
    ((forall f v,
        In f fund_flow_fields ->
        Pandas.lookup (Pandas.index latest_data) (Pandas.values latest_data) (snd f)
          = Some v ->
        exists x, float parse_float v = Returns x) ->
     script provider [prog; input] =
     mkProcess [dumps (normalize_independently parse_float latest_data)] [] 0) /\
    (forall f v e,
        In f fund_flow_fields ->
        Pandas.lookup (Pandas.index latest_data) (Pandas.values latest_data) (snd f)
          = Some v ->
        float parse_float v = Throws e ->
        exists g w e',
          In g fund_flow_fields /\
          Pandas.lookup (Pandas.index latest_data) (Pandas.values latest_data) (snd g)
            = Some w /\
          float parse_float w = Throws e' /\
          script provider [prog; input] =
          mkProcess [dumps default_fund_flow]
                    [diagnostic (strip_exchange_prefix input) e'] 0).
Proof.
  intros provider prog input market df latest_data Hm Hp He Hl Hdistinct.
  split.
  - intros Hall. rewrite script_cases. cbv zeta.
    rewrite Hm, Hp, He, Hl, (display_all_convert _ _ _ Hall). reflexivity.
  - intros f v e Hin Hc Hf.
    destruct (display_some_fails parse_float latest_data _ f v e Hin Hc Hf)
      as (g & w & e' & Hg & Hcg & Hfg & Hd).
    exists g, w, e'. repeat split; try assumption.
    rewrite script_cases. cbv zeta. rewrite Hm, Hp, He, Hl, Hd. reflexivity.
Qed.

(** C5.  For a code [t] made of digits, the arguments [SH]+[t], [SZ]+[t]
    and [t] are classified alike: the two leading characters are cut off
    exactly when the argument starts with [SH] or [SZ] in capitals, the
    market is computed from what remains, and the process behaves the
    same.  [SH600000] and [600000] are both Shanghai codes. *)
Theorem exchange_label_is_discarded :
  forall t : string,
    all_digits t = true ->
    strip_exchange_prefix ("SH" ++ t) = t /\
    strip_exchange_prefix ("SZ" ++ t) = t /\
    strip_exchange_prefix t = t /\
    market_of_code (strip_exchange_prefix ("SH" ++ t)) = market_of_code t /\
    market_of_code (strip_exchange_prefix ("SZ" ++ t)) = market_of_code t /\
    market_of_code (strip_exchange_prefix t) = market_of_code t /\
    (forall provider prog,
       script provider [prog; ("SH" ++ t)%string] = script provider [prog; t] /\
       script provider [prog; ("SZ" ++ t)%string] = script provider [prog; t]) /\
    (forall s, strip_exchange_prefix s =
               if startswith s "SH" || startswith s "SZ"
               then slice_from 2 s else s) /\
    strip_exchange_prefix "sh600000" = "sh600000" /\
    market_of_code (strip_exchange_prefix "SH600000") = Some "sh" /\
    market_of_code (strip_exchange_prefix "600000") = Some "sh".
Proof.
  intros t H.
  pose proof (strip_label_SH t) as HSH.
  pose proof (strip_label_SZ t) as HSZ.
  pose proof (strip_digits t H) as HD.
  repeat split; try reflexivity; try assumption; try congruence.
  - apply script_reads_stripped_code. congruence.
  - apply script_reads_stripped_code. congruence.
Qed.

End Rows.

(** *** Distinct labels *)

(** Among distinct labels a label selects the one cell that stands under
    it. *)
Lemma lookup_selects_the_cell labels cells key (v : pyval) :
  NoDup labels -> In (key, v) (combine labels cells) ->
  Pandas.lookup labels cells key = Some v.
Proof.
  revert cells. induction labels as [|l labels IH]; intros cells Hd Hin;
    [contradiction|].
  destruct cells as [|c cells]; [contradiction|].
  inversion Hd as [|? ? Hnot Hd']; subst. simpl in *.
  destruct Hin as [Heq|Hin].
  - inversion Heq; subst. now rewrite String.eqb_refl.
  - destruct (String.eqb_spec l key) as [->|_].
    + elim Hnot. exact (in_combine_l _ _ _ _ Hin).
    + exact (IH cells Hd' Hin).
Qed.

(** The columns of the sample frames are distinct. *)
Lemma provider_columns_distinct : NoDup Sample.provider_columns.
Proof.
  unfold Sample.provider_columns.
  repeat (constructor;
          [simpl; intros H;
           repeat (destruct H as [H|H]; [discriminate H|]); exact H|]).
  constructor.
Qed.

(** *** The script on the sample inputs *)

(** C3, as stated, fails.  The last row of the sample frame holds 250 for
    the main net inflow and a dash for the super-large net inflow.
    Resolving each field on its own would keep 250.0 and put 0.0 for the
    dash; the script prints the all-zero default instead, after the
    handler's line. *)
Lemma dash_replaces_whole_record :
  Pandas.iloc_last Sample.frame_dash = Returns Sample.series_dash /\
  float Sample.parse_float
        (Pandas.get Sample.series_dash "主力净流入-净额" (VInt 0))
    = Returns (Sample.of_int 250) /\
  float Sample.parse_float
        (Pandas.get Sample.series_dash "超大单净流入-净额" (VInt 0))
    = Throws (mkExc "ValueError" "could not convert string to float: '-'") /\
  normalize_independently Sample.parse_float Sample.series_dash =
    [ ("main_net_inflow", VFloat (Sample.of_int 250));
      ("super_large_net_inflow", VFloat zero);
      ("large_net_inflow", VFloat (Sample.of_int 100));
      ("medium_net_inflow", VFloat (Sample.of_int (-90)));
      ("small_net_inflow", VFloat (Sample.of_int (-160)));
      ("net_inflow_ratio", VFloat (Sample.of_int 2));
      ("active_buy_amount", VFloat zero);
      ("active_sell_amount", VFloat zero) ] /\
  fst (get_fund_flow_data Sample.parse_float (Sample.serves Sample.frame_dash)
         "600000" no_output) = Ok None /\
  Sample.run (Sample.serves Sample.frame_dash) [Sample.script_name; "600000"] =
    mkProcess
      [snapshot_text "0"]
      ["Error getting fund flow data for 600000: could not convert string to float: '-'"]
      0 /\
  Sample.run (Sample.serves Sample.frame_dash) [Sample.script_name; "600000"] <>
    mkProcess
      [Sample.dumps (normalize_independently Sample.parse_float Sample.series_dash)]
      [] 0.
Proof.
  repeat split; try (vm_compute; reflexivity).
  intros H. vm_compute in H. discriminate H.
Qed.

(** C7.  The numeric typing of the output depends on the path.  A code
    without a market makes the script print its literal default, whose
    eight values are the integer [0]; a fetched row that has none of the
    eight columns makes it print eight floats [0.0].  The two texts
    differ. *)
Theorem zero_snapshot_typing_depends_on_path :
  Sample.run Sample.nowhere [Sample.script_name; "999999"] =
    mkProcess [snapshot_text "0"] [] 0 /\
  Sample.run (Sample.serves Sample.frame_foreign) [Sample.script_name; "600000"] =
    mkProcess [snapshot_text "0.0"] [] 0 /\
  snapshot_text "0" <> snapshot_text "0.0" /\
  Forall (fun kv => is_int (snd kv) = true /\ is_float (snd kv) = false)
         default_fund_flow /\
  fst (get_fund_flow_data Sample.parse_float (Sample.serves Sample.frame_foreign)
         "600000" no_output) =
    Ok (Some (map (fun k => (k, VFloat zero)) canonical_fields)).
Proof.
  repeat split; try (vm_compute; reflexivity).
  - intros H. vm_compute in H. discriminate H.
  - repeat constructor.
Qed.

(** *** Witnesses *)

Lemma no_data_gives_zero_snapshot_witness :
  (market_of_code (strip_exchange_prefix "999999") = None /\
   out_lines (Sample.run Sample.nowhere [Sample.script_name; "999999"])
     = [snapshot_text "0"]) /\
  (Pandas.empty Sample.frame_no_rows = true /\
   out_lines (Sample.run (Sample.serves Sample.frame_no_rows)
                [Sample.script_name; "SH600000"])
     = [snapshot_text "0"] /\
   exit_status (Sample.run (Sample.serves Sample.frame_no_rows)
                  [Sample.script_name; "SH600000"]) = 0%Z) /\
  out_lines (Sample.run Sample.refuses [Sample.script_name; "300750"])
    = [snapshot_text "0"].
Proof.
  split; [split; [reflexivity|] | split; [split; [reflexivity | split] |]].
  - apply (no_data_gives_zero_snapshot Sample.parse_float Sample.repr_finite
             Sample.nowhere Sample.script_name "999999").
    left. reflexivity.
  - apply (no_data_gives_zero_snapshot Sample.parse_float Sample.repr_finite
             (Sample.serves Sample.frame_no_rows) Sample.script_name "SH600000").
    right. left. exists "sh", Sample.frame_no_rows.
    split; [reflexivity | split; reflexivity].
  - apply (no_data_gives_zero_snapshot Sample.parse_float Sample.repr_finite
             (Sample.serves Sample.frame_no_rows) Sample.script_name "SH600000").
    right. left. exists "sh", Sample.frame_no_rows.
    split; [reflexivity | split; reflexivity].
  - apply (no_data_gives_zero_snapshot Sample.parse_float Sample.repr_finite
             Sample.refuses Sample.script_name "300750").
    right. right. exists "sz", (mkExc "ConnectionError" "connection refused").
    split; reflexivity.
Defined.

Lemma provider_exception_is_reported_witness :
  market_of_code (strip_exchange_prefix "SZ000001") = Some "sz" /\
  Sample.run Sample.refuses [Sample.script_name; "SZ000001"] =
    mkProcess [snapshot_text "0"]
              ["Error getting fund flow data for 000001: connection refused"] 0.
Proof.
  split; [reflexivity|].
  apply (provider_exception_is_reported Sample.parse_float Sample.repr_finite
           Sample.refuses Sample.script_name "SZ000001" "sz"
           (mkExc "ConnectionError" "connection refused"));
    reflexivity.
Defined.

Lemma wrong_argument_count_prints_usage_witness :
  Sample.run Sample.nowhere [Sample.script_name] = mkProcess [usage] [] 1 /\
  Sample.run Sample.nowhere [Sample.script_name; "600000"; "000001"] =
    mkProcess [usage] [] 1.
Proof.
  split.
  - apply (wrong_argument_count_prints_usage Sample.parse_float
             Sample.repr_finite Sample.nowhere [Sample.script_name]).
    simpl. lia.
  - apply (wrong_argument_count_prints_usage Sample.parse_float
             Sample.repr_finite Sample.nowhere
             [Sample.script_name; "600000"; "000001"]).
    simpl. lia.
Defined.

Lemma get_fund_flow_data_absorbs_exceptions_witness :
  get_fund_flow_data_body Sample.parse_float (Sample.serves Sample.frame_dash)
    "600000" no_output =
    (Raise (mkExc "ValueError" "could not convert string to float: '-'"),
     no_output) /\
  get_fund_flow_data Sample.parse_float (Sample.serves Sample.frame_dash)
    "600000" no_output =
    (Ok None,
     reported "600000"
       (mkExc "ValueError" "could not convert string to float: '-'") no_output).
Proof.
  split; [reflexivity|].
  apply (get_fund_flow_data_absorbs_exceptions Sample.parse_float
           Sample.repr_finite (Sample.serves Sample.frame_dash)
           "600000" no_output).
  reflexivity.
Defined.

Lemma only_last_row_is_read_witness :
  Sample.run (Sample.serves Sample.frame_two_days) [Sample.script_name; "600000"] =
  Sample.run (Sample.serves Sample.frame_two_days') [Sample.script_name; "600000"].
Proof.
  apply (only_last_row_is_read Sample.parse_float Sample.repr_finite
           (Sample.serves Sample.frame_two_days)
           (Sample.serves Sample.frame_two_days')
           Sample.script_name "600000" "sh" Sample.provider_columns
           [Sample.row_monday] [Sample.row_other_monday] Sample.row_tuesday);
    reflexivity.
Defined.

Lemma exchange_label_is_discarded_witness :
  all_digits "600000" = true /\
  strip_exchange_prefix "SH600000" = "600000" /\
  strip_exchange_prefix "SZ600000" = "600000" /\
  strip_exchange_prefix "600000" = "600000".
Proof.
  split; [reflexivity|].
  pose proof (exchange_label_is_discarded Sample.parse_float Sample.repr_finite
                "600000" eq_refl) as H.
  destruct H as (H1 & H2 & H3 & _).
  exact (conj H1 (conj H2 H3)).
Defined.

Lemma fields_resolved_or_record_replaced_witness :
  NoDup (Pandas.index Sample.series_tuesday) /\
  NoDup (Pandas.index Sample.series_dash) /\
  Sample.run (Sample.serves Sample.frame_two_days) [Sample.script_name; "600000"] =
    mkProcess
      [Sample.dumps (normalize_independently Sample.parse_float Sample.series_tuesday)]
      [] 0 /\
  exists g w e',
    In g fund_flow_fields /\
    Pandas.lookup Sample.provider_columns Sample.row_dash (snd g) = Some w /\
    float Sample.parse_float w = Throws e' /\
    Sample.run (Sample.serves Sample.frame_dash) [Sample.script_name; "600000"] =
      mkProcess [Sample.dumps default_fund_flow] [diagnostic "600000" e'] 0.
Proof.
  split; [exact provider_columns_distinct|].
  split; [exact provider_columns_distinct|].
  split.
  - refine (proj1 (fields_resolved_or_record_replaced Sample.parse_float
                     Sample.repr_finite (Sample.serves Sample.frame_two_days)
                     Sample.script_name "600000" "sh" Sample.frame_two_days
                     Sample.series_tuesday eq_refl eq_refl eq_refl eq_refl
                     provider_columns_distinct) _).
    intros f v Hin.
    repeat (destruct Hin as [<-|Hin];
            [simpl; intros E; try discriminate E; inversion E; subst;
             eexists; vm_compute; reflexivity|]).
    contradiction.
  - apply (proj2 (fields_resolved_or_record_replaced Sample.parse_float
                    Sample.repr_finite (Sample.serves Sample.frame_dash)
                    Sample.script_name "600000" "sh" Sample.frame_dash
                    Sample.series_dash eq_refl eq_refl eq_refl eq_refl
                    provider_columns_distinct)
             ("super_large_net_inflow", "超大单净流入-净额") (VStr "-")
             (mkExc "ValueError" "could not convert string to float: '-'")).
    + simpl. right. left. reflexivity.
    + reflexivity.
    + reflexivity.
Defined.

(** ** Further properties of the script *)

(** *** More on the dictionary display *)

Section DisplayOrder.

Variable parse_float : string -> result float64.

Local Abbreviation display := (dict_display parse_float).
Local Abbreviation cell row column :=
  (Pandas.lookup (Pandas.index row) (Pandas.values row) column).

(** A display that raises does so for a cell that is present. *)
Lemma display_throws_cause row fs e :
  display row fs = Throws e ->
  exists f v, In f fs /\ cell row (snd f) = Some v /\
              float parse_float v = Throws e.
Proof.
  induction fs as [|h fs IH]; simpl; [discriminate|].
  destruct (cell row (snd h)) as [w|] eqn:E.
  - rewrite (entry_present _ _ _ _ E).
    destruct (float parse_float w) as [x|e0] eqn:Ew.
    + destruct (display row fs) as [d|e1]; [discriminate|].
      intros H. inversion H; subst.
      destruct (IH eq_refl) as (f & v & Hin & Hc & Hf).
      exists f, v. auto using in_cons.
    + intros H. inversion H; subst. exists h, w. auto using in_eq.
  - rewrite (entry_absent _ _ _ E).
    destruct (display row fs) as [d|e1]; [discriminate|].
    intros H. inversion H; subst.
    destruct (IH eq_refl) as (f & v & Hin & Hc & Hf).
    exists f, v. auto using in_cons.
Qed.

(** The entries before the first rejected cell do not matter. *)
Lemma display_first_rejected row before f after v e :
  (forall g w, In g before -> cell row (snd g) = Some w ->
               exists x, float parse_float w = Returns x) ->
  cell row (snd f) = Some v ->
  float parse_float v = Throws e ->
  display row (before ++ f :: after) = Throws e.
Proof.
  intros Hb Hc Hf. induction before as [|g before IH]; simpl.
  - rewrite (entry_present _ _ _ _ Hc), Hf. reflexivity.
  - rewrite IH by (intros h w Hh; apply Hb; now right).
    destruct (cell row (snd g)) as [w|] eqn:E.
    + rewrite (entry_present _ _ _ _ E).
      destruct (Hb g w (or_introl eq_refl) E) as [x ->]. reflexivity.
    + rewrite (entry_absent _ _ _ E). reflexivity.
Qed.

End DisplayOrder.

Lemma diagnostic_is_no_snapshot repr_finite stock_code e (d : pydict) :
  diagnostic stock_code e <> json_dumps repr_finite d.
Proof.
  destruct (dumps_starts_with_brace repr_finite d) as [rest ->].
  unfold diagnostic. simpl. discriminate.
Qed.

Section Further.

Variable parse_float : string -> result float64.
Variable repr_finite : bool -> positive -> Z -> string.

Local Abbreviation dumps := (json_dumps repr_finite).
Local Abbreviation script := (run_script parse_float repr_finite).
Local Abbreviation fetch := (get_fund_flow_data parse_float).

(** X1.  A code without a market never reaches the provider and is not
    reported: whatever the provider would answer, the process prints the
    all-zero default, leaves the error stream empty and ends with status 0,
    and [get_fund_flow_data] returns [None] without touching the streams. *)
Theorem code_without_market_is_silent :
  forall (provider : string -> string -> result Pandas.DataFrame)
         (prog input : string),
    market_of_code (strip_exchange_prefix input) = None ->
    script provider [prog; input] = mkProcess [snapshot_text "0"] [] 0 /\
    (forall s, fetch provider (strip_exchange_prefix input) s = (Ok None, s)) /\
    (forall provider', script provider' [prog; input] = script provider [prog; input]).
Proof.
  intros provider prog input Hm. repeat split.
  - rewrite script_cases. cbv zeta. rewrite Hm. reflexivity.
  - intros s. rewrite fetch_cases, Hm. reflexivity.
  - intros provider'. rewrite !script_cases. cbv zeta. rewrite Hm. reflexivity.
Qed.

(** X2.  The provider is consulted at one point only, the stripped code
    together with the market computed from it: two providers that answer
    alike there make the process behave alike. *)
Theorem provider_is_consulted_at_one_point :
  forall (provider provider' : string -> string -> result Pandas.DataFrame)
         (prog input : string),
    (forall market,
        market_of_code (strip_exchange_prefix input) = Some market ->
        provider (strip_exchange_prefix input) market =
        provider' (strip_exchange_prefix input) market) ->
    script provider [prog; input] = script provider' [prog; input] /\
    (forall s, fetch provider (strip_exchange_prefix input) s =
               fetch provider' (strip_exchange_prefix input) s).
Proof.
  intros provider provider' prog input H. split.
  - rewrite !script_cases. cbv zeta.
    destruct (market_of_code (strip_exchange_prefix input)) as [market|];
      [|reflexivity].
    rewrite (H market eq_refl). reflexivity.
  - intros s. rewrite !fetch_cases.
    destruct (market_of_code (strip_exchange_prefix input)) as [market|];
      [|reflexivity].
    rewrite (H market eq_refl). reflexivity.
Qed.

(** X3.  Every line on the error stream has a cause: with one argument
    and a provider whose frames have distinct column labels, the error
    stream is empty, or it holds the one diagnostic line of an
    exception that the provider raised or that [float] raised on a cell
    present in the last row of a frame that is not empty; in that case
    standard output is the all-zero default.  Selecting the last row never
    raises, since the emptiness test comes first. *)
Theorem diagnostic_has_a_cause :
  forall (provider : string -> string -> result Pandas.DataFrame)
         (prog input : string),
    (forall market df,
        provider (strip_exchange_prefix input) market = Returns df ->
        NoDup (Pandas.columns df)) ->
    err_lines (script provider [prog; input]) = [] \/
    exists market e,
      market_of_code (strip_exchange_prefix input) = Some market /\
      script provider [prog; input] =
        mkProcess [snapshot_text "0"]
                  [diagnostic (strip_exchange_prefix input) e] 0 /\
      (provider (strip_exchange_prefix input) market = Throws e \/
       exists df row f v,
         provider (strip_exchange_prefix input) market = Returns df /\
         Pandas.empty df = false /\
         Pandas.iloc_last df = Returns row /\
         In f fund_flow_fields /\
         Pandas.lookup (Pandas.index row) (Pandas.values row) (snd f) = Some v /\
         float parse_float v = Throws e).
Proof.
  intros provider prog input Hdistinct. rewrite script_cases. cbv zeta.
  destruct (market_of_code (strip_exchange_prefix input)) as [market|] eqn:Hm;
    [|left; reflexivity].
  destruct (provider (strip_exchange_prefix input) market) as [df|e] eqn:Hp.
  - destruct (Pandas.empty df) eqn:He; [left; reflexivity|].
    destruct (iloc_last_defined df He) as [row Hl]. rewrite Hl.
    destruct (dict_display parse_float row fund_flow_fields) as [d|e] eqn:Hd;
      [left; reflexivity|].
    right. exists market, e. split; [reflexivity|]. split; [reflexivity|].
    right. destruct (display_throws_cause _ _ _ _ Hd) as (f & v & Hin & Hc & Hf).
    exists df, row, f, v. repeat split; try assumption.
  - right. exists market, e. split; [reflexivity|]. split; [reflexivity|].
    left. exact Hp.
Qed.

(** X4.  The exit status counts the arguments.  For every argument vector
    the status is 0 exactly when the vector has the program name and one
    argument, and 1 otherwise; standard output receives exactly one line,
    the error stream at most one, and [main] never lets an exception
    escape, the access to [argv[1]] included. *)
Theorem exit_status_counts_arguments :
  forall (provider : string -> string -> result Pandas.DataFrame)
         (argv : list string),
    (length argv = 2 /\ exit_status (script provider argv) = 0%Z \/
     length argv <> 2 /\ exit_status (script provider argv) = 1%Z) /\
    length (out_lines (script provider argv)) = 1 /\
    length (err_lines (script provider argv)) <= 1 /\
    (forall s e s',
        main parse_float repr_finite provider argv s <> (Raise e, s')).
Proof.
  intros provider argv.
  destruct (Nat.eq_dec (length argv) 2) as [E|N].
  - destruct argv as [|prog [|input [|x rest]]]; try discriminate E.
    assert (Hrun : exists d errs,
               script provider [prog; input] = mkProcess [dumps d] errs 0 /\
               length errs <= 1).
    { rewrite script_cases. cbv zeta. unfold quiet_default, reported_default.
      destruct (market_of_code (strip_exchange_prefix input)) as [market|];
        [|eauto].
      destruct (provider (strip_exchange_prefix input) market) as [df|e];
        [|eauto].
      destruct (Pandas.empty df); [eauto|].
      destruct (Pandas.iloc_last df) as [row|e]; [|eauto].
      destruct (dict_display parse_float row fund_flow_fields); eauto. }
    destruct Hrun as (d & errs & -> & Hlen).
    repeat split; auto.
    intros s e s'. rewrite main_one_argument, fetch_cases.
    destruct (market_of_code (strip_exchange_prefix input)) as [market|];
      [|discriminate].
    destruct (provider (strip_exchange_prefix input) market) as [df|e0];
      [|discriminate].
    destruct (Pandas.empty df); [discriminate|].
    destruct (Pandas.iloc_last df) as [row|e0]; [|discriminate].
    destruct (dict_display parse_float row fund_flow_fields) as [[|kv d']|e0];
      discriminate.
  - assert (Hmain : forall s,
               main parse_float repr_finite provider argv s =
               (SysExit 1, {| stdout := stdout s ++ [usage]; stderr := stderr s |})).
    { intros s. unfold main. unfold bind at 1.
      destruct (Nat.eqb_spec (length argv) 2) as [E|_]; [contradiction|].
      reflexivity. }
    unfold run_script. rewrite Hmain. simpl.
    repeat split; auto.
    intros s e s'. rewrite Hmain. discriminate.
Qed.

(** X5.  The entries are evaluated in the order of the dictionary display,
    so the diagnostic names the first rejected value in that order: when
    the labels of the last row are distinct,
    every entry before [f] is absent from the last row or holds a value
    [float] accepts, and the column of [f] holds a value [float] rejects
    with [e], the line on the error stream is the one for [e], whatever
    the later entries hold. *)
Theorem first_rejected_value_is_reported :
  forall (provider : string -> string -> result Pandas.DataFrame)
         (prog input market : string) (df : Pandas.DataFrame)
         (row : Pandas.Series)
         (before after : list (string * string)) (f : string * string)
         (v : pyval) (e : PyException),
    market_of_code (strip_exchange_prefix input) = Some market ->
    provider (strip_exchange_prefix input) market = Returns df ->
    Pandas.empty df = false ->
    Pandas.iloc_last df = Returns row ->
    NoDup (Pandas.index row) ->
    fund_flow_fields = before ++ f :: after ->
    (forall g w,
        In g before ->
        Pandas.lookup (Pandas.index row) (Pandas.values row) (snd g) = Some w ->
        exists x, float parse_float w = Returns x) ->
    Pandas.lookup (Pandas.index row) (Pandas.values row) (snd f) = Some v ->
    float parse_float v = Throws e ->
    script provider [prog; input] =
    mkProcess [snapshot_text "0"]
              [("Error getting fund flow data for "
                  ++ strip_exchange_prefix input ++ ": " ++ exc_str e)%string]
              0.
Proof.
  intros provider prog input market df row before after f v e
         Hm Hp He Hl Hdistinct Hfs Hb Hc Hf.
  rewrite script_cases. cbv zeta. rewrite Hm, Hp, He, Hl, Hfs.
  rewrite (display_first_rejected parse_float row before f after v e Hb Hc Hf).
  reflexivity.
Qed.

(** X7.  [get_fund_flow_data] writes nothing on standard output and
    returns [None] or a complete record: a returned dictionary has the
    eight names in order with a float under each, is never the integer
    default, and comes with the streams untouched; [None] comes with the
    error stream untouched or extended by one diagnostic line.  The test
    [if fund_flow_data:] of [main] therefore only separates [None] from a
    record. *)
Theorem get_fund_flow_data_result_shape :
  forall (provider : string -> string -> result Pandas.DataFrame)
         (stock_code : string) (s : streams),
    stdout (snd (fetch provider stock_code s)) = stdout s /\
    match fst (fetch provider stock_code s) with
    | Ok (Some d) =>
        map fst d = canonical_fields /\
        Forall (fun kv => is_float (snd kv) = true) d /\
        d <> [] /\ d <> default_fund_flow /\
        snd (fetch provider stock_code s) = s
    | Ok None =>
        stderr (snd (fetch provider stock_code s)) = stderr s \/
        exists e, stderr (snd (fetch provider stock_code s)) =
                  stderr s ++ [diagnostic stock_code e]
    | Raise _ | SysExit _ => False
    end.
Proof.
  intros provider stock_code s. rewrite fetch_cases.
  destruct (market_of_code stock_code) as [market|]; [|simpl; auto].
  destruct (provider stock_code market) as [df|e]; [|simpl; eauto].
  destruct (Pandas.empty df); [simpl; auto|].
  destruct (Pandas.iloc_last df) as [row|e]; [|simpl; eauto].
  destruct (dict_display parse_float row fund_flow_fields) as [d|e] eqn:Hd;
    [|simpl; eauto].
  simpl. split; [reflexivity|].
  destruct (display_shape _ _ _ _ Hd) as [Hk Hv].
  split; [exact Hk|]. split; [exact Hv|]. split; [|split; [|reflexivity]].
  - intros ->. discriminate Hk.
  - intros ->. inversion Hv as [|kv l Hfl _]. discriminate Hfl.
Qed.

End Further.

(** *** More on codes and labels *)

(** X6.  The market is read off the first two characters alone: two codes
    that agree there have the same market, whatever follows (no length or
    digit check is made), and a text shorter than two characters has no
    market. *)
Theorem market_reads_first_two_characters :
  (forall (a b : ascii) (t t' : string),
      market_of_code (String a (String b t)) =
      market_of_code (String a (String b t'))) /\
  (forall a : ascii, market_of_code (String a EmptyString) = None) /\
  market_of_code EmptyString = None.
Proof.
  split; [|split; [|reflexivity]].
  - intros a b t t'. unfold market_of_code, startswith.
    destruct t, t'; reflexivity.
  - intros a.
    assert (H : forall p1 p2, startswith (String a EmptyString)
                                (String p1 (String p2 EmptyString)) = false)
      by (intros p1 p2; apply startswith_false; intros t Ht; inversion Ht).
    unfold market_of_code. now rewrite !H.
Qed.

Section Labels.

Variable parse_float : string -> result float64.
Variable repr_finite : bool -> positive -> Z -> string.
Variable provider : string -> string -> result Pandas.DataFrame.

Local Abbreviation script := (run_script parse_float repr_finite provider).

(** X8.  A label is cut once.  An argument that carries two labels keeps
    the second one after the cut, has no market, and gets the all-zero
    default without a diagnostic; so does a label with nothing behind
    it. *)
Theorem label_is_cut_once :
  forall (prog l1 l2 t : string),
    (l1 = "SH" \/ l1 = "SZ") ->
    (l2 = "SH" \/ l2 = "SZ") ->
    strip_exchange_prefix (l1 ++ l2 ++ t) = (l2 ++ t)%string /\
    market_of_code (strip_exchange_prefix (l1 ++ l2 ++ t)) = None /\
    script [prog; (l1 ++ l2 ++ t)%string] = mkProcess [snapshot_text "0"] [] 0 /\
    script [prog; l1] = mkProcess [snapshot_text "0"] [] 0.
Proof.
  intros prog l1 l2 t H1 H2.
  assert (Hs : strip_exchange_prefix (l1 ++ l2 ++ t) = (l2 ++ t)%string)
    by (destruct H1 as [-> | ->]; [apply strip_label_SH | apply strip_label_SZ]).
  assert (Hm : market_of_code (l2 ++ t) = None)
    by (destruct H2 as [-> | ->]; destruct t; reflexivity).
  assert (Hl : market_of_code (strip_exchange_prefix l1) = None)
    by (destruct H1 as [-> | ->]; reflexivity).
  repeat split.
  - exact Hs.
  - now rewrite Hs.
  - rewrite script_cases. cbv zeta. rewrite Hs, Hm. reflexivity.
  - rewrite script_cases. cbv zeta. rewrite Hl. reflexivity.
Qed.

(** X9.  The label is not checked against the digits.  Whatever follows
    the label is the code: an argument [SZ]+[c] or [SH]+[c] behaves as the
    argument [c] does whenever [c] itself starts with no label, so a
    Shanghai code behind [SZ] is fetched from Shanghai and a Shenzhen code
    behind [SH] from Shenzhen. *)
Theorem label_is_not_validated :
  forall (prog c : string),
    startswith c "SH" = false ->
    startswith c "SZ" = false ->
    script [prog; ("SH" ++ c)%string] = script [prog; c] /\
    script [prog; ("SZ" ++ c)%string] = script [prog; c] /\
    (forall t, c = ("60" ++ t)%string ->
               market_of_code (strip_exchange_prefix ("SZ" ++ c)) = Some "sh") /\
    (forall t, c = ("00" ++ t)%string ->
               market_of_code (strip_exchange_prefix ("SH" ++ c)) = Some "sz").
Proof.
  intros prog c HSH HSZ.
  assert (Hc : strip_exchange_prefix c = c)
    by (unfold strip_exchange_prefix; now rewrite HSH, HSZ).
  repeat split.
  - apply script_reads_stripped_code. now rewrite strip_label_SH, Hc.
  - apply script_reads_stripped_code. now rewrite strip_label_SZ, Hc.
  - intros t ->. rewrite strip_label_SZ. destruct t; reflexivity.
  - intros t ->. rewrite strip_label_SH. destruct t; reflexivity.
Qed.

End Labels.

(** *** Witnesses of the further properties *)

Lemma code_without_market_is_silent_witness :
  market_of_code (strip_exchange_prefix "sh600000") = None /\
  Sample.run Sample.refuses [Sample.script_name; "sh600000"] =
    mkProcess [snapshot_text "0"] [] 0.
Proof.
  split; [reflexivity|].
  apply (code_without_market_is_silent Sample.parse_float Sample.repr_finite
           Sample.refuses Sample.script_name "sh600000").
  reflexivity.
Defined.

Lemma provider_is_consulted_at_one_point_witness :
  Sample.run (Sample.serves Sample.frame_two_days)
             [Sample.script_name; "SH600000"] =
  Sample.run (Sample.only_at "600000" "sh" Sample.frame_two_days)
             [Sample.script_name; "SH600000"].
Proof.
  apply (provider_is_consulted_at_one_point Sample.parse_float
           Sample.repr_finite
           (Sample.serves Sample.frame_two_days)
           (Sample.only_at "600000" "sh" Sample.frame_two_days)
           Sample.script_name "SH600000").
  intros market H. vm_compute in H. inversion H. reflexivity.
Defined.

Lemma first_rejected_value_is_reported_witness :
  NoDup (Pandas.index Sample.series_two_rejected) /\
  Pandas.lookup Sample.provider_columns Sample.row_two_rejected
                "主力净流入-净占比" = Some VNone /\
  Sample.run (Sample.serves Sample.frame_two_rejected)
             [Sample.script_name; "600000"] =
    mkProcess
      [snapshot_text "0"]
      ["Error getting fund flow data for 600000: could not convert string to float: '-'"]
      0.
Proof.
  split; [exact provider_columns_distinct|].
  split; [reflexivity|].
  apply (first_rejected_value_is_reported Sample.parse_float Sample.repr_finite
           (Sample.serves Sample.frame_two_rejected)
           Sample.script_name "600000" "sh" Sample.frame_two_rejected
           Sample.series_two_rejected
           [("main_net_inflow", "主力净流入-净额")]
           [ ("large_net_inflow", "大单净流入-净额");
             ("medium_net_inflow", "中单净流入-净额");
             ("small_net_inflow", "小单净流入-净额");
             ("net_inflow_ratio", "主力净流入-净占比");
             ("active_buy_amount", "主力买入成交额");
             ("active_sell_amount", "主力卖出成交额") ]
           ("super_large_net_inflow", "超大单净流入-净额")
           (VStr "-")
           (mkExc "ValueError" "could not convert string to float: '-'"));
    try reflexivity.
  - exact provider_columns_distinct.
  - intros g w [<-|[]]. simpl. intros E. inversion E; subst.
    eexists. vm_compute. reflexivity.
Defined.

Lemma label_is_cut_once_witness :
  strip_exchange_prefix "SHSZ600000" = "SZ600000" /\
  Sample.run (Sample.serves Sample.frame_two_days)
             [Sample.script_name; "SHSZ600000"] =
    mkProcess [snapshot_text "0"] [] 0.
Proof.
  pose proof (label_is_cut_once Sample.parse_float Sample.repr_finite
                (Sample.serves Sample.frame_two_days) Sample.script_name
                "SH" "SZ" "600000" (or_introl eq_refl) (or_intror eq_refl)) as H.
  destruct H as (H1 & _ & H3 & _).
  exact (conj H1 H3).
Defined.

Lemma label_is_not_validated_witness :
  Sample.run (Sample.only_at "600000" "sh" Sample.frame_two_days)
             [Sample.script_name; "SZ600000"] =
  Sample.run (Sample.only_at "600000" "sh" Sample.frame_two_days)
             [Sample.script_name; "600000"] /\
  market_of_code (strip_exchange_prefix "SZ600000") = Some "sh".
Proof.
  pose proof (label_is_not_validated Sample.parse_float Sample.repr_finite
                (Sample.only_at "600000" "sh" Sample.frame_two_days)
                Sample.script_name "600000" eq_refl eq_refl) as H.
  destruct H as (_ & H2 & H3 & _).
  exact (conj H2 (H3 "0000" eq_refl)).
Defined.

(** *** Missing columns *)

(** X10.  Missing columns are not reported.  When the last row of a frame
    that is not empty has none of the eight columns the script reads, the
    process prints eight floats [0.0], writes nothing on the error stream
    and ends with status 0. *)
Theorem missing_columns_give_silent_zeros :
  forall (parse_float : string -> result float64)
         (repr_finite : bool -> positive -> Z -> string)
         (provider : string -> string -> result Pandas.DataFrame)
         (prog input market : string) (df : Pandas.DataFrame)
         (row : Pandas.Series),
    market_of_code (strip_exchange_prefix input) = Some market ->
    provider (strip_exchange_prefix input) market = Returns df ->
    Pandas.empty df = false ->
    Pandas.iloc_last df = Returns row ->
    (forall f, In f fund_flow_fields ->
               Pandas.lookup (Pandas.index row) (Pandas.values row) (snd f) = None) ->
    run_script parse_float repr_finite provider [prog; input] =
    mkProcess [snapshot_text "0.0"] [] 0.
Proof.
  intros parse_float repr_finite provider prog input market df row
         Hm Hp He Hl Hnone.
  rewrite script_cases. cbv zeta. rewrite Hm, Hp, He, Hl.
  rewrite display_all_convert
    by (intros f v Hin Hc; rewrite (Hnone f Hin) in Hc; discriminate Hc).
  rewrite (map_ext_in _ (fun f => (fst f, VFloat zero))).
  - reflexivity.
  - intros f Hin. unfold field_or_zero. now rewrite (Hnone f Hin).
Qed.

Lemma missing_columns_give_silent_zeros_witness :
  Pandas.empty Sample.frame_foreign = false /\
  Sample.run (Sample.serves Sample.frame_foreign) [Sample.script_name; "300750"] =
    mkProcess [snapshot_text "0.0"] [] 0.
Proof.
  split; [reflexivity|].
  apply (missing_columns_give_silent_zeros Sample.parse_float Sample.repr_finite
           (Sample.serves Sample.frame_foreign) Sample.script_name "300750" "sz"
           Sample.frame_foreign
           (Pandas.mkSeries ["date"; "close"] [VStr "2024-01-09"; VInt 8]));
    try reflexivity.
  intros f Hin.
  repeat (destruct Hin as [<-|Hin]; [reflexivity|]).
  contradiction.
Defined.

Lemma diagnostic_has_a_cause_witness :
  NoDup (Pandas.columns Sample.frame_dash) /\
  (err_lines (Sample.run (Sample.serves Sample.frame_dash)
                [Sample.script_name; "600000"]) = [] \/
   exists market e,
     market_of_code (strip_exchange_prefix "600000") = Some market /\
     Sample.run (Sample.serves Sample.frame_dash)
                [Sample.script_name; "600000"] =
       mkProcess [snapshot_text "0"] [diagnostic (strip_exchange_prefix "600000") e] 0 /\
     (Sample.serves Sample.frame_dash (strip_exchange_prefix "600000") market
        = Throws e \/
      exists df row f v,
        Sample.serves Sample.frame_dash (strip_exchange_prefix "600000") market
          = Returns df /\
        Pandas.empty df = false /\
        Pandas.iloc_last df = Returns row /\
        In f fund_flow_fields /\
        Pandas.lookup (Pandas.index row) (Pandas.values row) (snd f) = Some v /\
        float Sample.parse_float v = Throws e)).
Proof.
  split; [exact provider_columns_distinct|].
  apply (diagnostic_has_a_cause Sample.parse_float Sample.repr_finite
           (Sample.serves Sample.frame_dash) Sample.script_name "600000").
  intros market df H. inversion H. exact provider_columns_distinct.
Defined.
